(** * stdnum.it.aic: Italian AIC codes

    A shallow embedding of [stdnum/it/aic.py] and the properties of its
    conversion, checksum and validation functions.

    Modelling conventions.
    - A Python [str] is a list of characters ([text]).  Characters are the
      8-bit [ascii] type; the case and whitespace tables are Python's on the
      ASCII range, and a character above 127 is carried through unchanged
      (it has no case and is not whitespace).
    - Python integers are unbounded, hence [Z]; [//] and [%] with a positive
      divisor are [Z.div] and [Z.modulo] (both round towards minus
      infinity).
    - Exceptions are values of [exn]; a function that may raise returns a
      [result]. *)

From Stdlib Require Import ZArith Ascii String List Bool Lia.
From Equations Require Import Equations.
Import ListNotations.
Local Open Scope Z_scope.

(** ** Text, exceptions and the error monad *)

Definition text := list ascii.

Definition lit (s : string) : text := list_ascii_of_string s.

(** Modelled from the spec: the error taxonomy of [stdnum.exceptions]
    (InvalidFormat, InvalidLength and InvalidChecksum, all specializations of
    the common validation-failure category [ValidationError]).  [ValueError]
    and [IndexError] are Python's own exceptions and are outside that
    category. *)
Inductive exn : Type :=
| InvalidFormat
| InvalidLength
| InvalidChecksum
| ValueError
| IndexError.

Definition is_ValidationError (e : exn) : bool :=
  match e with
  | InvalidFormat | InvalidLength | InvalidChecksum => true
  | ValueError | IndexError => false
  end.

Inductive result (A : Type) : Type :=
| Ok (a : A)
| Raise (e : exn).
Arguments Ok {A} a.
Arguments Raise {A} e.

Definition bind {A B : Type} (m : result A) (k : A -> result B) : result B :=
  match m with
  | Ok a => k a
  | Raise e => Raise e
  end.

Notation "x <- m ;; k" := (bind m (fun x => k))
  (at level 61, m at next level, right associativity).
Notation "' pat <- m ;; k" := (bind m (fun pat => k))
  (at level 61, pat pattern, m at next level, right associativity).
Notation "m ;;; k" := (bind m (fun _ => k))
  (at level 61, right associativity).

Fixpoint mapM {A B : Type} (f : A -> result B) (l : list A) : result (list B) :=
  match l with
  | [] => Ok []
  | a :: r => b <- f a ;; bs <- mapM f r ;; Ok (b :: bs)
  end.

(** ** The Python built-ins the module uses *)

(** Dividing by at least two shortens the binary representation: the
    termination measure of the two division loops, [str]'s and
    [to_base32]'s. *)
Ltac log2_decreases :=
  apply Z2Nat.inj_lt; try apply Z.log2_nonneg;
  match goal with
  | |- Z.log2 (?n / ?d) < Z.log2 ?n =>
      assert (0 <= n / d) by (apply Z.div_pos; lia);
      let E := fresh "E" in
      destruct (Z.eq_dec (n / d) 0) as [E | E];
      [ rewrite E; change (Z.log2 0) with 0; apply Z.log2_pos; lia
      | apply Z.log2_lt_pow2; [lia |];
        assert (n / d <= n / 2) by (apply Z.div_le_compat_l; lia);
        assert (n / 2 < 2 ^ Z.log2 n);
        [ apply Z.div_lt_upper_bound; [lia |];
          rewrite <- Z.pow_succ_r by apply Z.log2_nonneg;
          apply Z.log2_spec; lia
        | lia ] ]
  end.

Module Py.

(** [c.upper()] on one character. *)
Definition upper_char (c : ascii) : ascii :=
  let n := N_of_ascii c in
  if ((97 <=? n) && (n <=? 122))%N then ascii_of_N (n - 32) else c.

(** [s.upper()]. *)
Definition upper (s : text) : text := map upper_char s.

(** [c.isspace()] for a character of a [str]. *)
Definition is_space (c : ascii) : bool :=
  let n := N_of_ascii c in
  (((9 <=? n) && (n <=? 13)) || ((28 <=? n) && (n <=? 32)))%N.

(** The whitespace [int] skips around the digits of an ASCII string (C's
    [isspace]). *)
Definition is_c_space (c : ascii) : bool :=
  let n := N_of_ascii c in
  (((9 <=? n) && (n <=? 13)) || (n =? 32))%N.

(** Dropping the leading, the trailing, and the surrounding characters
    that count as whitespace. *)
Fixpoint lstrip_of (space : ascii -> bool) (s : text) : text :=
  match s with
  | c :: r => if space c then lstrip_of space r else s
  | [] => []
  end.

Definition rstrip_of (space : ascii -> bool) (s : text) : text :=
  rev (lstrip_of space (rev s)).

Definition strip_of (space : ascii -> bool) (s : text) : text :=
  rstrip_of space (lstrip_of space s).

(** [s.strip()]. *)
Definition strip (s : text) : text := strip_of is_space s.

(** [c in s] for a one-character [c]. *)
Definition contains (s : text) (c : ascii) : bool :=
  existsb (Ascii.eqb c) s.

(** [s.index(c)] for a one-character [c]; [ValueError] when absent. *)
Fixpoint index (s : text) (c : ascii) : result Z :=
  match s with
  | [] => Raise ValueError
  | x :: r => if Ascii.eqb x c then Ok 0 else i <- index r c ;; Ok (i + 1)
  end.

(** [s[i]], with Python's negative indices; [IndexError] out of range. *)
Definition getitem (s : text) (i : Z) : result ascii :=
  let len := Z.of_nat (length s) in
  let j := if i <? 0 then i + len else i in
  if (j <? 0) || (len <=? j) then Raise IndexError
  else match nth_error s (Z.to_nat j) with
       | Some c => Ok c
       | None => Raise IndexError
       end.

Definition text_eqb (a b : text) : bool :=
  if list_eq_dec ascii_dec a b then true else false.

Definition is_digit (c : ascii) : bool :=
  let n := N_of_ascii c in ((48 <=? n) && (n <=? 57))%N.

Definition digit_val (c : ascii) : Z := Z.of_N (N_of_ascii c) - 48.

Definition digit_char (d : Z) : ascii := ascii_of_N (Z.to_N (d + 48)).

(** The digits of an integer literal: decimal digits, where single
    underscores may separate two digits. *)
Fixpoint parse_digits (acc : Z) (after_digit : bool) (s : text) : result Z :=
  match s with
  | [] => if after_digit then Ok acc else Raise ValueError
  | c :: r =>
      if is_digit c then parse_digits (10 * acc + digit_val c) true r
      else if Ascii.eqb c "_"
           then (if after_digit then parse_digits acc false r
                 else Raise ValueError)
           else Raise ValueError
  end.

(** [int(s)] in base ten: surrounding whitespace, an optional sign, digits. *)
Definition int (s : text) : result Z :=
  match strip_of is_c_space s with
  | c :: r =>
      if Ascii.eqb c "-" then n <- parse_digits 0 false r ;; Ok (- n)
      else if Ascii.eqb c "+" then parse_digits 0 false r
      else parse_digits 0 false (c :: r)
  | [] => Raise ValueError
  end.

(** The decimal digits of a non-negative integer, most significant first. *)
Equations? digits_of (n : Z) : text by wf (Z.to_nat (Z.log2 n)) lt :=
  digits_of n with Z_lt_dec n 10 => {
    | left _ := [digit_char n];
    | right _ := digits_of (n / 10) ++ [digit_char (n mod 10)] }.
Proof.
  log2_decreases.
Qed.

(** [str(n)] for an integer. *)
Definition str (n : Z) : text :=
  if n <? 0 then "-"%char :: digits_of (- n) else digits_of n.

(** [s.zfill(width)]: zeros go after a leading sign. *)
Definition zfill (width : nat) (s : text) : text :=
  let pad := repeat "0"%char (width - length s) in
  match s with
  | c :: r =>
      if Ascii.eqb c "+" || Ascii.eqb c "-" then c :: pad ++ r else pad ++ s
  | [] => pad
  end.

(** [sum(l)]. *)
Definition sum (l : list Z) : Z := fold_left Z.add l 0.

(** [enumerate(l)]. *)
Definition enumerate {A : Type} (l : list A) : list (Z * A) :=
  combine (map Z.of_nat (seq 0 (length l))) l.

End Py.

(** Modelled from the spec: [stdnum.util.clean], the cleaning utility
    [clean(text, charsToStrip)] that removes the specified characters from
    the string. *)
Definition clean (number deletechars : text) : text :=
  filter (fun x => negb (Py.contains deletechars x)) number.

(** ** The module *)

(** The table of AIC base32 allowed chars. *)
Definition AIC_TABLE : text := lit "0123456789BCDFGHJKLMNPQRSTUVWXYZ".

(** The body of the [for idx, x in enumerate(string)] loop of
    [from_base32]; a failing [index] is the [ValueError] that the
    [except] clause turns into [InvalidFormat]. *)
Fixpoint from_base32_loop (l : list (Z * ascii)) (tot : Z) : result Z :=
  match l with
  | [] => Ok tot
  | (idx, x) :: r =>
      match Py.index AIC_TABLE (Py.upper_char x) with
      | Ok i => from_base32_loop r (tot + i * 32 ^ idx)
      | Raise _ => Raise InvalidFormat
      end
  end.

Definition from_base32 (string : text) : result text :=
  let string := rev string in
  tot <- from_base32_loop (Py.enumerate string) 0 ;;
  Ok (Py.zfill 9 (Py.str tot)).

(** The [while remainder > 31] loop of [to_base32], returning the final
    [remainder] and [res]. *)
Equations? to_base32_loop (remainder : Z) (res : text) : result (Z * text)
  by wf (Z.to_nat (Z.log2 remainder)) lt :=
  to_base32_loop remainder res with Z_gt_dec remainder 31 => {
    | left _ :=
        match Py.getitem AIC_TABLE (remainder mod 32) with
        | Ok char => to_base32_loop (remainder / 32) (res ++ [char])
        | Raise e => Raise e
        end;
    | right _ := Ok (remainder, res) }.
Proof.
  log2_decreases.
Qed.

Definition to_base32 (string : text) : result text :=
  remainder <- Py.int string ;;
  '(remainder, res) <- to_base32_loop remainder [] ;;
  char <- Py.getitem AIC_TABLE remainder ;;
  let res := res ++ [char] in
  let res := rev res in
  Ok (Py.zfill 6 res).

Definition weights : list Z := [1; 2; 1; 2; 1; 2; 1; 2].

(** Calculate the check digit for the BASE10 AIC code. *)
Definition calc_check_digit (aic : text) : result text :=
  xs <- mapM (fun '(w, n) => d <- Py.int [n] ;; Ok (w * d))
             (combine weights aic) ;;
  Ok (Py.str (Py.sum (map (fun x => x / 10 + x mod 10) xs) mod 10)).

Definition check_base10_checksum (aic : text) : result bool :=
  char <- calc_check_digit aic ;;
  last <- Py.getitem aic (-1) ;;
  Ok (Py.text_eqb [last] char).

Definition is_base10 (code : text) : result bool :=
  if negb (length code =? 9)%nat then Raise InvalidLength
  else if negb (forallb (fun c => Py.contains (firstn 10 AIC_TABLE)
                                              (Py.upper_char c)) code)
  then Raise InvalidFormat
  else
    c0 <- Py.getitem code 0 ;;
    if negb (Ascii.eqb c0 "0") then Raise InvalidFormat
    else
      res <- check_base10_checksum code ;;
      if negb res then Raise InvalidChecksum else Ok res.

Definition is_base32 (code : text) : result bool :=
  if negb (length code =? 6)%nat then Raise InvalidLength
  else if negb (forallb (fun c => Py.contains AIC_TABLE (Py.upper_char c)) code)
  then Raise InvalidFormat
  else
    converted <- from_base32 code ;;
    is_base10 converted.

(** The argument of [compact], [validate] and [is_valid] is any Python
    object: a [str], or something that is not an instance of [str]. *)
Inductive value : Type :=
| VStr (s : text)
| VOther.

Definition compact (code : value) : result text :=
  match code with
  | VOther => Raise InvalidFormat
  | VStr code =>
      let cleaned := Py.strip (Py.upper (clean code (lit " "))) in
      Ok cleaned
  end.

Definition validate (code : value) : result text :=
  code <- compact code ;;
  if (length code =? 6)%nat then
    is_base32 code ;;; from_base32 code
  else
    is_base10 code ;;; Ok code.

(** [bool(s)] for a [str]. *)
Definition truthy (s : text) : bool :=
  match s with [] => false | _ :: _ => true end.

(** [try: return bool(validate(code)) except ValidationError: return False];
    an exception outside [ValidationError] propagates. *)
Definition is_valid (code : value) : result bool :=
  match validate code with
  | Ok r => Ok (truthy r)
  | Raise e => if is_ValidationError e then Ok false else Raise e
  end.

(** * Numerals and the specification's notions

    Both conversions read and write positional numerals: base ten for
    [int] and [str], base 32 for the AIC table.  [le_value b l] is the value
    of the digit list [l] in base [b], least significant digit first. *)

Fixpoint le_value (b : Z) (l : list Z) : Z :=
  match l with
  | [] => 0
  | d :: r => d + b * le_value b r
  end.

Definition in_range (b : Z) (l : list Z) : Prop :=
  Forall (fun d => 0 <= d < b) l.

(** A string of decimal digits (possibly empty). *)
Definition all_digits (s : text) : bool := forallb Py.is_digit s.

(** The integer a string of decimal digits denotes. *)
Definition dec_value (s : text) : Z := le_value 10 (map Py.digit_val (rev s)).

(** Membership of the alphabet, as [is_base32] tests it. *)
Definition in_table (c : ascii) : bool :=
  Py.contains AIC_TABLE (Py.upper_char c).

(** The numeral value of a symbol: its index in the table, after
    uppercasing (0 for a character outside the alphabet). *)
Definition digit_value (c : ascii) : Z :=
  match Py.index AIC_TABLE (Py.upper_char c) with
  | Ok i => i
  | Raise _ => 0
  end.

(** The integer a base32 string denotes: each symbol's value times 32 to
    the power of its position counted from the least-significant end. *)
Fixpoint b32_value (s : text) : Z :=
  match s with
  | [] => 0
  | c :: r => digit_value c * 32 ^ Z.of_nat (length r) + b32_value r
  end.

(** The weight of a position: 1, 2, 1, 2, ... starting with 1 at
    position 0. *)
Definition weight (i : nat) : Z := if Nat.even i then 1 else 2.

(** Folding a weighted product into one digit. *)
Definition fold_product (x : Z) : Z := x / 10 + x mod 10.

(** The digit at a position of a digit string. *)
Definition digit_at (s : text) (i : nat) : Z :=
  Py.digit_val (nth i s "0"%char).

(** The check digit as the specification words it: the sum over positions
    0..7 of the folded weighted digits, modulo 10. *)
Definition check_digit_spec (s : text) : Z :=
  fold_right Z.add 0
    (map (fun i => fold_product (weight i * digit_at s i)) (seq 0 8)) mod 10.

(** The first character of a string ([None] for the empty string). *)
Definition first_char (s : text) : option ascii := nth_error s 0.

(** A character that [compact] leaves as it is: not a deleted character
    and its own uppercase. *)
Definition compacted_char (c : ascii) : Prop :=
  Py.contains (lit " ") c = false /\ Py.upper_char c = c.

(** * Positional numerals *)

Section Positional.

Variable b : Z.
Hypothesis b_ge_2 : 2 <= b.

Lemma le_value_app (l l' : list Z) :
  le_value b (l ++ l') = le_value b l + b ^ Z.of_nat (length l) * le_value b l'.
Proof.
  induction l as [| d l IH]; cbn [app le_value length].
  - rewrite Z.pow_0_r. lia.
  - rewrite IH, Nat2Z.inj_succ, Z.pow_succ_r by lia. ring.
Qed.

Lemma le_value_bound (l : list Z) :
  in_range b l -> 0 <= le_value b l < b ^ Z.of_nat (length l).
Proof.
  induction 1 as [| d l Hd _ IH]; cbn [le_value length].
  - rewrite Z.pow_0_r. lia.
  - rewrite Nat2Z.inj_succ, Z.pow_succ_r by lia. nia.
Qed.

Lemma le_value_inj (l l' : list Z) :
  in_range b l -> in_range b l' -> length l = length l' ->
  le_value b l = le_value b l' -> l = l'.
Proof.
  intros Hl. revert l'.
  induction Hl as [| d l Hd _ IH]; intros [| d' l'] Hl' Hlen Hv;
    cbn [length] in Hlen; try discriminate; [reflexivity |].
  inversion Hl' as [| ? ? Hd' Hl'']; subst.
  cbn [le_value] in Hv.
  assert (le_value b l = le_value b l') as Hr
    by (destruct (Z.lt_trichotomy (le_value b l) (le_value b l')) as [H | [H | H]];
        [nia | assumption | nia]).
  assert (d = d') as -> by (rewrite Hr in Hv; lia).
  f_equal. apply IH; [assumption | lia | assumption].
Qed.

End Positional.

(** * Characters *)

Ltac each_char c := destruct c as [[|] [|] [|] [|] [|] [|] [|] [|]].

Lemma upper_char_idem (c : ascii) :
  Py.upper_char (Py.upper_char c) = Py.upper_char c.
Proof. each_char c; reflexivity. Qed.

Lemma upper_char_not_blank (c : ascii) :
  Py.contains (lit " ") c = false ->
  Py.contains (lit " ") (Py.upper_char c) = false.
Proof. each_char c; intros H; try reflexivity; discriminate H. Qed.

(** The first ten symbols of the table are exactly the decimal digits. *)
Lemma base10_symbol (c : ascii) :
  Py.contains (firstn 10 AIC_TABLE) (Py.upper_char c) = Py.is_digit c.
Proof. each_char c; reflexivity. Qed.

Lemma digit_val_range (c : ascii) :
  Py.is_digit c = true -> 0 <= Py.digit_val c < 10.
Proof. each_char c; intros H; try discriminate H; vm_compute; split; congruence. Qed.

Lemma digit_val_inj (c c' : ascii) :
  Py.is_digit c = true -> Py.is_digit c' = true ->
  Py.digit_val c = Py.digit_val c' -> c = c'.
Proof.
  unfold Py.digit_val. intros _ _ H.
  assert (N_of_ascii c = N_of_ascii c') as E by lia.
  rewrite <- (ascii_N_embedding c), <- (ascii_N_embedding c'), E. reflexivity.
Qed.

Lemma digit_char_is_digit (d : Z) :
  0 <= d < 10 -> Py.is_digit (Py.digit_char d) = true.
Proof.
  intros H.
  assert (d = 0 \/ d = 1 \/ d = 2 \/ d = 3 \/ d = 4 \/ d = 5 \/ d = 6 \/
          d = 7 \/ d = 8 \/ d = 9) as E by lia.
  repeat (destruct E as [-> | E]; [reflexivity |]). subst d. reflexivity.
Qed.

Lemma digit_val_char (d : Z) :
  0 <= d < 10 -> Py.digit_val (Py.digit_char d) = d.
Proof.
  intros H.
  assert (d = 0 \/ d = 1 \/ d = 2 \/ d = 3 \/ d = 4 \/ d = 5 \/ d = 6 \/
          d = 7 \/ d = 8 \/ d = 9) as E by lia.
  repeat (destruct E as [-> | E]; [reflexivity |]). subst d. reflexivity.
Qed.

Lemma digit_plain (c : ascii) :
  Py.is_digit c = true ->
  Py.is_c_space c = false /\ Ascii.eqb c "_" = false /\
  Ascii.eqb c "+" = false /\ Ascii.eqb c "-" = false /\
  Py.upper_char c = c.
Proof. each_char c; intros H; try discriminate H; repeat split. Qed.

(** * Decimal numerals *)

Lemma digits_of_step (n : Z) :
  Py.digits_of n =
  if Z_lt_dec n 10 then [Py.digit_char n]
  else Py.digits_of (n / 10) ++ [Py.digit_char (n mod 10)].
Proof.
  funelim (Py.digits_of n); destruct (Z_lt_dec n 10); try lia; reflexivity.
Qed.

Lemma dec_value_snoc (s : text) (c : ascii) :
  dec_value (s ++ [c]) = Py.digit_val c + 10 * dec_value s.
Proof. unfold dec_value. rewrite rev_unit. reflexivity. Qed.

Lemma dec_value_cons (c : ascii) (s : text) :
  dec_value (c :: s) =
  Py.digit_val c * 10 ^ Z.of_nat (length s) + dec_value s.
Proof.
  unfold dec_value. cbn [rev]. rewrite map_app, le_value_app by lia.
  rewrite length_map, length_rev. cbn [map le_value]. lia.
Qed.

Lemma all_digits_in_range (s : text) :
  all_digits s = true -> in_range 10 (map Py.digit_val (rev s)).
Proof.
  unfold all_digits, in_range. rewrite forallb_forall, Forall_forall.
  intros H d Hd. apply in_map_iff in Hd as (c & <- & Hc).
  apply digit_val_range, H, in_rev, Hc.
Qed.

Lemma dec_value_bound (s : text) :
  all_digits s = true -> 0 <= dec_value s < 10 ^ Z.of_nat (length s).
Proof.
  intros H. unfold dec_value.
  pose proof (le_value_bound 10 ltac:(lia) _ (all_digits_in_range s H)) as B.
  rewrite length_map, length_rev in B. exact B.
Qed.

(** Two digit strings of one length that denote the same integer are the
    same string. *)
Lemma dec_value_inj (s t : text) :
  all_digits s = true -> all_digits t = true -> length s = length t ->
  dec_value s = dec_value t -> s = t.
Proof.
  intros Hs Ht Hlen Hv.
  assert (map Py.digit_val (rev s) = map Py.digit_val (rev t)) as E.
  { apply (le_value_inj 10); try lia; auto using all_digits_in_range.
    rewrite !length_map, !length_rev. exact Hlen. }
  assert (rev s = rev t) as R.
  { unfold all_digits in Hs, Ht. rewrite forallb_forall in Hs, Ht.
    assert (forall c, In c (rev s) -> Py.is_digit c = true) as Hs'
      by (intros c Hc; apply Hs, in_rev, Hc).
    assert (forall c, In c (rev t) -> Py.is_digit c = true) as Ht'
      by (intros c Hc; apply Ht, in_rev, Hc).
    clear Hs Ht Hv Hlen. revert E Hs' Ht'.
    generalize (rev s) (rev t). intros u.
    induction u as [| c u IH]; intros [| c' u'] E Hu Hu';
      try discriminate E; [reflexivity |].
    cbn [map] in E. injection E as Ec Eu. f_equal.
    - apply digit_val_inj; [apply Hu | apply Hu' | exact Ec]; left; reflexivity.
    - apply IH; [exact Eu | |]; intros x Hx; [apply Hu | apply Hu']; right; exact Hx. }
  rewrite <- (rev_involutive s), <- (rev_involutive t), R. reflexivity.
Qed.

(** ** [str] *)

Lemma digits_of_spec (n : Z) :
  0 <= n ->
  all_digits (Py.digits_of n) = true /\ dec_value (Py.digits_of n) = n.
Proof.
  intros Hn. generalize Hn. pattern n.
  apply Z_lt_induction; [clear n Hn | exact Hn].
  intros n IH Hn. rewrite digits_of_step.
  destruct (Z_lt_dec n 10) as [Hlt | Hge].
  - unfold all_digits, dec_value. cbn [forallb rev app map le_value].
    rewrite digit_char_is_digit, digit_val_char by lia. split; [reflexivity | lia].
  - assert (0 <= n / 10 < n) as Hq
      by (split; [apply Z.div_pos | apply Z.div_lt]; lia).
    destruct (IH _ Hq (proj1 Hq)) as [Hd Hv].
    pose proof (Z.mod_pos_bound n 10 ltac:(lia)) as Hm.
    split.
    + unfold all_digits in *. rewrite forallb_app, Hd. cbn [forallb].
      rewrite digit_char_is_digit by exact Hm. reflexivity.
    + rewrite dec_value_snoc, Hv, digit_val_char by exact Hm.
      pose proof (Z.div_mod n 10 ltac:(lia)). lia.
Qed.

Lemma digits_of_length_le (k : nat) (n : Z) :
  0 <= n < 10 ^ Z.of_nat (S k) -> (length (Py.digits_of n) <= S k)%nat.
Proof.
  revert n. induction k as [| k IH]; intros n Hn; rewrite digits_of_step;
    destruct (Z_lt_dec n 10) as [Hlt | Hge]; cbn [length]; try lia.
  rewrite length_app. cbn [length].
  assert (length (Py.digits_of (n / 10)) <= S k)%nat; [| lia].
  apply IH. split; [apply Z.div_pos; lia |].
  apply Z.div_lt_upper_bound; [lia |].
  rewrite (Nat2Z.inj_succ (S k)), Z.pow_succ_r in Hn by lia. lia.
Qed.

Lemma digits_of_length_gt (k : nat) (n : Z) :
  10 ^ Z.of_nat k <= n -> (k < length (Py.digits_of n))%nat.
Proof.
  revert n. induction k as [| k IH]; intros n Hn; rewrite digits_of_step;
    destruct (Z_lt_dec n 10) as [Hlt | Hge]; cbn [length]; try lia.
  - rewrite length_app. cbn [length]. lia.
  - rewrite Nat2Z.inj_succ, Z.pow_succ_r in Hn by lia.
    assert (0 < 10 ^ Z.of_nat k) by (apply Z.pow_pos_nonneg; lia). lia.
  - rewrite length_app. cbn [length].
    assert (k < length (Py.digits_of (n / 10)))%nat; [| lia].
    apply IH. apply Z.div_le_lower_bound; [lia |].
    rewrite Nat2Z.inj_succ, Z.pow_succ_r in Hn by lia. lia.
Qed.

(** [str] of a non-negative integer is its digit string. *)
Lemma str_nonneg (n : Z) : 0 <= n -> Py.str n = Py.digits_of n.
Proof. intros H. unfold Py.str. destruct (Z.ltb_spec n 0); [lia | reflexivity]. Qed.

(** ** [zfill] on digit strings *)

Lemma zfill_digits (w : nat) (s : text) :
  all_digits s = true -> Py.zfill w s = repeat "0"%char (w - length s) ++ s.
Proof.
  intros H. unfold Py.zfill. destruct s as [| c r].
  - rewrite app_nil_r. reflexivity.
  - cbn [all_digits forallb] in H. apply andb_prop in H as [Hc _].
    destruct (digit_plain c Hc) as (_ & _ & Hp & Hm & _).
    rewrite Hp, Hm. reflexivity.
Qed.

Lemma all_digits_zeros (k : nat) : all_digits (repeat "0"%char k) = true.
Proof. induction k as [| k IH]; [reflexivity | exact IH]. Qed.

Lemma dec_value_zeros_app (k : nat) (s : text) :
  dec_value (repeat "0"%char k ++ s) = dec_value s.
Proof.
  induction k as [| k IH]; [reflexivity |].
  cbn [repeat app]. rewrite dec_value_cons, IH. reflexivity.
Qed.

(** Printing the value of a digit string and padding to its length gives
    the string back. *)
Lemma zfill_str_dec_value (s : text) :
  all_digits s = true -> s <> [] ->
  Py.zfill (length s) (Py.str (dec_value s)) = s.
Proof.
  intros Hs Hne.
  pose proof (dec_value_bound s Hs) as B.
  destruct (digits_of_spec (dec_value s) (proj1 B)) as [Hd Hv].
  rewrite str_nonneg by apply B. rewrite zfill_digits by exact Hd.
  assert (length (Py.digits_of (dec_value s)) <= length s)%nat as Hlen.
  { destruct s as [| c r]; [congruence |]. apply digits_of_length_le. exact B. }
  apply dec_value_inj.
  - unfold all_digits in *. rewrite forallb_app, Hd, andb_true_r.
    apply all_digits_zeros.
  - exact Hs.
  - rewrite length_app, repeat_length. lia.
  - rewrite dec_value_zeros_app. exact Hv.
Qed.

(** ** [strip] and [int] on digit strings *)

Lemma strip_digits (s : text) :
  all_digits s = true -> Py.strip_of Py.is_c_space s = s.
Proof.
  intros H. unfold Py.strip_of, Py.rstrip_of.
  assert (forall u, all_digits u = true -> Py.lstrip_of Py.is_c_space u = u) as L.
  { intros [| c r] Hu; [reflexivity |].
    cbn [all_digits forallb] in Hu. apply andb_prop in Hu as [Hc _].
    cbn [Py.lstrip_of]. destruct (digit_plain c Hc) as [-> _]. reflexivity. }
  rewrite (L s H), L, rev_involutive; [reflexivity |].
  unfold all_digits. rewrite forallb_forall. intros c Hc.
  unfold all_digits in H. rewrite forallb_forall in H. apply H, in_rev, Hc.
Qed.

Lemma parse_digits_digits (s : text) (acc : Z) (after_digit : bool) :
  all_digits s = true -> s <> [] \/ after_digit = true ->
  Py.parse_digits acc after_digit s =
  Ok (acc * 10 ^ Z.of_nat (length s) + dec_value s).
Proof.
  revert acc after_digit. induction s as [| c r IH]; intros acc b Hs Hb.
  - destruct Hb as [Hb | ->]; [congruence |]. cbn. f_equal. lia.
  - cbn [all_digits forallb] in Hs. apply andb_prop in Hs as [Hc Hr].
    cbn [Py.parse_digits]. rewrite Hc, (IH _ _ Hr) by (right; reflexivity).
    rewrite dec_value_cons. cbn [length].
    rewrite Nat2Z.inj_succ, Z.pow_succ_r by lia. f_equal. ring.
Qed.

(** [int] of a non-empty digit string is the integer the string denotes. *)
Lemma int_digits (s : text) :
  all_digits s = true -> s <> [] -> Py.int s = Ok (dec_value s).
Proof.
  intros Hs Hne. unfold Py.int. rewrite (strip_digits s Hs).
  destruct s as [| c r]; [congruence |].
  pose proof Hs as Hs'. cbn [all_digits forallb] in Hs'.
  apply andb_prop in Hs' as [Hc _].
  destruct (digit_plain c Hc) as (_ & _ & Hp & Hm & _).
  rewrite Hm, Hp, parse_digits_digits by (auto; left; discriminate).
  f_equal.
Qed.

(** * Base 32 numerals over the AIC table *)

Lemma in_table_index (c : ascii) :
  in_table c = true ->
  Py.index AIC_TABLE (Py.upper_char c) = Ok (digit_value c) /\
  0 <= digit_value c < 32.
Proof.
  each_char c; intros H; try discriminate H;
    (split; [reflexivity | vm_compute; split; congruence]).
Qed.

Lemma table_getitem (q : Z) :
  0 <= q < 32 ->
  exists c, Py.getitem AIC_TABLE q = Ok c /\
            Py.contains AIC_TABLE c = true /\ digit_value c = q /\
            (Ascii.eqb c "+" || Ascii.eqb c "-") = false.
Proof.
  intros H.
  assert (exists k, (k < 32)%nat /\ q = Z.of_nat k) as (k & Hk & ->)
    by (exists (Z.to_nat q); lia).
  do 32 (destruct k as [| k]; [eexists; repeat split |]). lia.
Qed.

Lemma all_in_table_rev (s : text) :
  forallb in_table (rev s) = forallb in_table s.
Proof.
  induction s as [| c r IH]; [reflexivity |].
  cbn [rev forallb]. rewrite forallb_app, IH. cbn [forallb].
  rewrite andb_true_r. apply andb_comm.
Qed.

Lemma b32_value_le (s : text) :
  b32_value s = le_value 32 (map digit_value (rev s)).
Proof.
  induction s as [| c r IH]; [reflexivity |].
  cbn [b32_value rev]. rewrite map_app, le_value_app by lia.
  rewrite length_map, length_rev, IH. cbn [map le_value]. lia.
Qed.

Lemma b32_in_range (s : text) :
  forallb in_table s = true -> in_range 32 (map digit_value s).
Proof.
  unfold in_range. rewrite forallb_forall, Forall_forall.
  intros H d Hd. apply in_map_iff in Hd as (c & <- & Hc).
  apply in_table_index, H, Hc.
Qed.

Lemma b32_value_bound (s : text) :
  forallb in_table s = true -> 0 <= b32_value s < 32 ^ Z.of_nat (length s).
Proof.
  intros H. rewrite b32_value_le.
  rewrite <- all_in_table_rev in H.
  pose proof (le_value_bound 32 ltac:(lia) _ (b32_in_range _ H)) as B.
  rewrite length_map, length_rev in B. exact B.
Qed.

(** ** [from_base32] *)

Lemma from_base32_loop_value (l : text) (k : nat) (tot : Z) :
  forallb in_table l = true ->
  from_base32_loop (combine (map Z.of_nat (seq k (length l))) l) tot =
  Ok (tot + 32 ^ Z.of_nat k * le_value 32 (map digit_value l)).
Proof.
  revert k tot. induction l as [| x r IH]; intros k tot H.
  - cbn. f_equal. lia.
  - cbn [forallb] in H. apply andb_prop in H as [Hx Hr].
    cbn [length seq map combine from_base32_loop le_value].
    destruct (in_table_index x Hx) as [-> _].
    rewrite (IH (S k) _ Hr), Nat2Z.inj_succ, Z.pow_succ_r by lia.
    f_equal. ring.
Qed.

Lemma from_base32_value (s : text) :
  forallb in_table s = true ->
  from_base32 s = Ok (Py.zfill 9 (Py.str (b32_value s))).
Proof.
  intros H. unfold from_base32, Py.enumerate.
  rewrite from_base32_loop_value by (rewrite all_in_table_rev; exact H).
  cbn [bind]. rewrite b32_value_le. do 3 f_equal. rewrite Z.pow_0_r. lia.
Qed.

(** [from_base32] raises nothing but [InvalidFormat]. *)
Lemma from_base32_loop_raises (l : list (Z * ascii)) (tot : Z) (e : exn) :
  from_base32_loop l tot = Raise e -> e = InvalidFormat.
Proof.
  revert tot. induction l as [| [idx x] r IH]; intros tot H; [discriminate H |].
  cbn [from_base32_loop] in H.
  destruct (Py.index AIC_TABLE (Py.upper_char x)); [eauto | congruence].
Qed.

(** ** [to_base32] *)

(** A symbol of the table is accepted by the case-insensitive test. *)
Lemma contains_in_table (c : ascii) :
  Py.contains AIC_TABLE c = true -> in_table c = true.
Proof. each_char c; intros H; try discriminate H; reflexivity. Qed.

Lemma all_contains_in_table (s : text) :
  forallb (Py.contains AIC_TABLE) s = true -> forallb in_table s = true.
Proof.
  rewrite !forallb_forall. intros H c Hc. apply contains_in_table, H, Hc.
Qed.

Lemma to_base32_loop_step (remainder : Z) (res : text) :
  to_base32_loop remainder res =
  if Z_gt_dec remainder 31 then
    match Py.getitem AIC_TABLE (remainder mod 32) with
    | Ok char => to_base32_loop (remainder / 32) (res ++ [char])
    | Raise e => Raise e
    end
  else Ok (remainder, res).
Proof.
  funelim (to_base32_loop remainder res);
    destruct (Z_gt_dec remainder 31); try lia; reflexivity.
Qed.

(** The loop terminates on every non-negative integer; it appends the
    base 32 digits of [remainder] below the most significant one, least
    significant first, and leaves the most significant digit [q]. *)
Lemma to_base32_loop_spec (n : Z) :
  0 <= n ->
  forall res, exists q chars,
    to_base32_loop n res = Ok (q, res ++ chars) /\
    0 <= q < 32 /\
    forallb (Py.contains AIC_TABLE) chars = true /\
    le_value 32 (map digit_value chars) + 32 ^ Z.of_nat (length chars) * q = n /\
    (chars = [] \/ 1 <= q).
Proof.
  intros Hn. generalize Hn. pattern n.
  apply Z_lt_induction; [clear n Hn | exact Hn].
  intros n IH Hn res. rewrite to_base32_loop_step.
  destruct (Z_gt_dec n 31) as [Hgt | Hle].
  - pose proof (Z.mod_pos_bound n 32 ltac:(lia)) as Hm.
    destruct (table_getitem _ Hm) as (c & -> & Hc & Hv & _).
    assert (0 <= n / 32 < n) as Hq
      by (split; [apply Z.div_pos | apply Z.div_lt]; lia).
    destruct (IH _ Hq (proj1 Hq) (res ++ [c]))
      as (q & chars & E & Hqr & Hall & Hval & Hmsd).
    exists q, (c :: chars). rewrite E, <- app_assoc. cbn [app].
    repeat split; try lia.
    + cbn [forallb]. rewrite Hc, Hall. reflexivity.
    + cbn [map le_value length]. rewrite Hv, Nat2Z.inj_succ, Z.pow_succ_r by lia.
      pose proof (Z.div_mod n 32 ltac:(lia)).
      replace (le_value 32 (map digit_value chars)) with
        (n / 32 - 32 ^ Z.of_nat (length chars) * q) by lia.
      lia.
    + right. destruct Hmsd as [-> | Hmsd]; [| exact Hmsd].
      cbn [map le_value length Z.of_nat] in Hval. rewrite Z.pow_0_r in Hval.
      assert (1 <= n / 32) by (apply Z.div_le_lower_bound; lia). lia.
  - exists n, []. rewrite app_nil_r. cbn [map le_value length forallb Z.of_nat].
    rewrite Z.pow_0_r. repeat split; try lia. left. reflexivity.
Qed.

Lemma b32_value_zeros_app (k : nat) (t : text) :
  b32_value (repeat "0"%char k ++ t) = b32_value t.
Proof.
  induction k as [| k IH]; [reflexivity |].
  cbn [repeat app b32_value]. rewrite IH.
  change (digit_value "0") with 0. lia.
Qed.

Lemma all_contains_zeros_app (k : nat) (t : text) :
  forallb (Py.contains AIC_TABLE) t = true ->
  forallb (Py.contains AIC_TABLE) (repeat "0"%char k ++ t) = true.
Proof.
  intros H. induction k as [| k IH]; [exact H |].
  cbn [repeat app forallb]. rewrite IH. reflexivity.
Qed.

(** On a non-empty digit string [to_base32] returns the base 32 numeral
    [t] of the integer the string denotes, left-padded with the symbol
    ['0'] up to six characters. *)
Lemma to_base32_digits (s : text) :
  all_digits s = true -> s <> [] ->
  exists t,
    to_base32 s = Ok (repeat "0"%char (6 - length t) ++ t) /\
    forallb (Py.contains AIC_TABLE) t = true /\
    b32_value t = dec_value s /\
    (dec_value s < 32 ^ 6 -> (length t <= 6)%nat).
Proof.
  intros Hs Hne. unfold to_base32. rewrite (int_digits s Hs Hne). cbn [bind].
  pose proof (dec_value_bound s Hs) as [Hn _].
  destruct (to_base32_loop_spec _ Hn []) as (q & chars & -> & Hq & Hall & Hval & Hmsd).
  cbn [bind app].
  destruct (table_getitem q Hq) as (cq & -> & Hcq & Hvq & Hsign).
  cbn [bind]. rewrite rev_unit. unfold Py.zfill. rewrite Hsign.
  exists (cq :: rev chars). repeat split.
  - cbn [forallb]. rewrite Hcq. cbn [andb].
    rewrite forallb_forall in *. intros c Hc. apply Hall, in_rev, Hc.
  - rewrite b32_value_le. cbn [rev]. rewrite rev_involutive, map_app.
    rewrite le_value_app by lia. cbn [map le_value]. rewrite length_map, Hvq.
    lia.
  - intros Hlt. cbn [length]. rewrite length_rev.
    destruct Hmsd as [-> | Hmsd]; [cbn; lia |].
    destruct (le_lt_dec 6 (length chars)) as [Hbig | Hsmall]; [| lia].
    assert (32 ^ 6 <= 32 ^ Z.of_nat (length chars))
      by (apply Z.pow_le_mono_r; lia).
    assert (in_range 32 (map digit_value chars)) as Hr
      by (apply b32_in_range, all_contains_in_table, Hall).
    pose proof (le_value_bound 32 ltac:(lia) _ Hr). nia.
Qed.

(** * The check digit *)

Lemma int_digit (c : ascii) :
  Py.is_digit c = true -> Py.int [c] = Ok (Py.digit_val c).
Proof.
  intros H. rewrite int_digits.
  - unfold dec_value. cbn [rev app map le_value]. f_equal. lia.
  - cbn [all_digits forallb]. rewrite H. reflexivity.
  - discriminate.
Qed.

Lemma str_digit (d : Z) : 0 <= d < 10 -> Py.str d = [Py.digit_char d].
Proof.
  intros H. rewrite str_nonneg, digits_of_step by lia.
  destruct (Z_lt_dec d 10); [reflexivity | lia].
Qed.

Lemma check_digit_spec_range (s : text) : 0 <= check_digit_spec s < 10.
Proof. unfold check_digit_spec. apply Z.mod_pos_bound. lia. Qed.

Ltac split_digits H :=
  cbn [all_digits forallb firstn] in H;
  repeat match type of H with
         | (_ && _)%bool = true => let Hc := fresh "Hc" in
                                    apply andb_prop in H as [Hc H]
         end.

(** [calc_check_digit] reads the first eight characters only, and on eight
    digits computes the specified digit. *)
Lemma calc_check_digit_value (s : text) :
  (8 <= length s)%nat -> all_digits (firstn 8 s) = true ->
  calc_check_digit s = Ok (Py.str (check_digit_spec s)).
Proof.
  intros Hlen Hd.
  do 8 (destruct s as [| ? s]; [cbn [length] in Hlen; lia |]).
  split_digits Hd.
  unfold calc_check_digit, weights. cbn [combine mapM].
  repeat (rewrite int_digit by assumption; cbn [bind]).
  destruct s; cbn [combine mapM bind map]; do 2 f_equal;
    unfold check_digit_spec, Py.sum, fold_product, weight, digit_at;
    cbn [seq map fold_right fold_left Nat.even nth]; f_equal; ring.
Qed.

(** ** [is_base10] *)

Lemma base10_chars (s : text) :
  forallb (fun c => Py.contains (firstn 10 AIC_TABLE) (Py.upper_char c)) s =
  all_digits s.
Proof.
  unfold all_digits. induction s as [| c r IH]; [reflexivity |].
  cbn [forallb]. rewrite IH, base10_symbol. reflexivity.
Qed.

(** What [is_base10] does, condition by condition. *)
Lemma is_base10_cases (code : text) :
  is_base10 code =
  if negb (length code =? 9)%nat then Raise InvalidLength
  else if negb (all_digits code) then Raise InvalidFormat
  else if negb (match first_char code with
                | Some c => Ascii.eqb c "0"
                | None => false
                end) then Raise InvalidFormat
  else if Py.text_eqb (skipn 8 code) (Py.str (check_digit_spec code))
       then Ok true else Raise InvalidChecksum.
Proof.
  unfold is_base10. rewrite base10_chars.
  destruct (length code =? 9)%nat eqn:Hlen; cbn [negb]; [| reflexivity].
  destruct (all_digits code) eqn:Hd; cbn [negb]; [| reflexivity].
  apply Nat.eqb_eq in Hlen.
  do 9 (destruct code as [| ? code]; [discriminate Hlen |]).
  destruct code; [| discriminate Hlen].
  unfold check_base10_checksum. rewrite calc_check_digit_value.
  - match goal with
    | |- context [Py.getitem ?l 0] =>
        replace (Py.getitem l 0) with (@Ok ascii a) by reflexivity;
        replace (Py.getitem l (-1)) with (@Ok ascii a7) by reflexivity
    end.
    cbn [bind first_char nth_error skipn].
    destruct (Ascii.eqb a "0"); cbn [negb]; [| reflexivity].
    destruct (Py.text_eqb _ _); reflexivity.
  - cbn [length]. lia.
  - split_digits Hd. cbn [firstn all_digits forallb].
    repeat match goal with H : Py.is_digit _ = true |- _ => rewrite H; clear H end.
    reflexivity.
Qed.

(** ** [is_base32] *)

Lemma is_base32_cases (code : text) :
  is_base32 code =
  if negb (length code =? 6)%nat then Raise InvalidLength
  else if negb (forallb in_table code) then Raise InvalidFormat
  else is_base10 (Py.zfill 9 (Py.str (b32_value code))).
Proof.
  unfold is_base32. fold in_table.
  change (fun c => Py.contains AIC_TABLE (Py.upper_char c)) with in_table.
  destruct (length code =? 6)%nat; cbn [negb]; [| reflexivity].
  destruct (forallb in_table code) eqn:H; cbn [negb]; [| reflexivity].
  rewrite (from_base32_value code H). reflexivity.
Qed.

Lemma is_base10_raises (code : text) (e : exn) :
  is_base10 code = Raise e -> is_ValidationError e = true.
Proof.
  rewrite is_base10_cases.
  repeat match goal with
         | |- context [if ?b then _ else _] => destruct b
         end; intros H; inversion H; reflexivity.
Qed.

Lemma is_base10_ok (code : text) (res : bool) :
  is_base10 code = Ok res ->
  res = true /\ length code = 9%nat /\ all_digits code = true /\
  first_char code = Some "0"%char.
Proof.
  rewrite is_base10_cases.
  destruct (length code =? 9)%nat eqn:Hlen; cbn [negb]; [| discriminate].
  destruct (all_digits code) eqn:Hd; cbn [negb]; [| discriminate].
  destruct (first_char code) as [c |]; cbn [negb]; [| discriminate].
  destruct (Ascii.eqb_spec c "0"); cbn [negb]; [| discriminate].
  destruct (Py.text_eqb _ _); [| discriminate].
  intros H. inversion H. subst. apply Nat.eqb_eq in Hlen. auto.
Qed.

Lemma is_base32_raises (code : text) (e : exn) :
  is_base32 code = Raise e -> is_ValidationError e = true.
Proof.
  rewrite is_base32_cases.
  destruct (negb _); [intros H; inversion H; reflexivity |].
  destruct (negb _); [intros H; inversion H; reflexivity |].
  apply is_base10_raises.
Qed.

(** * [strip] and [compact] *)

Section Strip.

Variable space : ascii -> bool.

Lemma lstrip_length (s : text) :
  (length (Py.lstrip_of space s) <= length s)%nat.
Proof.
  induction s as [| c r IH]; cbn [Py.lstrip_of length]; [lia |].
  destruct (space c); cbn [length]; lia.
Qed.

Lemma lstrip_idem (s : text) :
  Py.lstrip_of space (Py.lstrip_of space s) = Py.lstrip_of space s.
Proof.
  induction s as [| c r IH]; [reflexivity |]. cbn [Py.lstrip_of].
  destruct (space c) eqn:E; [exact IH |]. cbn [Py.lstrip_of]. rewrite E.
  reflexivity.
Qed.

Lemma lstrip_suffix (s : text) : exists w, s = w ++ Py.lstrip_of space s.
Proof.
  induction s as [| c r [w IH]]; [exists []; reflexivity |]. cbn [Py.lstrip_of].
  destruct (space c); [| exists []; reflexivity].
  exists (c :: w). cbn [app]. f_equal. exact IH.
Qed.

Lemma rstrip_prefix (s : text) : exists w, s = Py.rstrip_of space s ++ w.
Proof.
  unfold Py.rstrip_of. destruct (lstrip_suffix (rev s)) as [w E].
  exists (rev w). rewrite <- rev_app_distr, <- E, rev_involutive. reflexivity.
Qed.

(** Stripping on the right keeps a string stripped on the left. *)
Lemma lstrip_rstrip (s : text) :
  Py.lstrip_of space s = s ->
  Py.lstrip_of space (Py.rstrip_of space s) = Py.rstrip_of space s.
Proof.
  intros H. destruct (rstrip_prefix s) as [w E].
  destruct (Py.rstrip_of space s) as [| c r]; [reflexivity |].
  cbn [Py.lstrip_of]. destruct (space c) eqn:Hc; [| reflexivity].
  exfalso. rewrite E in H. cbn [app Py.lstrip_of] in H. rewrite Hc in H.
  pose proof (lstrip_length (r ++ w)) as L. rewrite H in L.
  cbn [length] in L. lia.
Qed.

Lemma strip_of_idem (s : text) :
  Py.strip_of space (Py.strip_of space s) = Py.strip_of space s.
Proof.
  unfold Py.strip_of. rewrite lstrip_rstrip by apply lstrip_idem.
  unfold Py.rstrip_of. rewrite rev_involutive, lstrip_idem. reflexivity.
Qed.

Lemma Forall_lstrip (P : ascii -> Prop) (s : text) :
  Forall P s -> Forall P (Py.lstrip_of space s).
Proof.
  induction 1 as [| c r Hc Hr IH]; cbn [Py.lstrip_of]; [constructor |].
  destruct (space c); [exact IH | constructor; assumption].
Qed.

Lemma Forall_strip_of (P : ascii -> Prop) (s : text) :
  Forall P s -> Forall P (Py.strip_of space s).
Proof.
  intros H. unfold Py.strip_of, Py.rstrip_of.
  apply Forall_rev, Forall_lstrip, Forall_rev, Forall_lstrip, H.
Qed.

End Strip.

Lemma strip_idem (s : text) : Py.strip (Py.strip s) = Py.strip s.
Proof. apply strip_of_idem. Qed.

Lemma Forall_strip (P : ascii -> Prop) (s : text) :
  Forall P s -> Forall P (Py.strip s).
Proof. apply Forall_strip_of. Qed.

Lemma upper_clean_compacted (s : text) :
  Forall compacted_char (Py.upper (clean s (lit " "))).
Proof.
  unfold Py.upper, clean. apply Forall_map, Forall_forall.
  intros c Hc. apply filter_In in Hc as [_ Hc].
  apply negb_true_iff in Hc.
  split; [apply upper_char_not_blank, Hc | apply upper_char_idem].
Qed.

Lemma clean_upper_compacted (s : text) :
  Forall compacted_char s -> Py.upper (clean s (lit " ")) = s.
Proof.
  induction 1 as [| c r [Hb Hu] _ IH]; [reflexivity |].
  unfold Py.upper, clean in *. cbn [filter]. rewrite Hb. cbn [negb map].
  rewrite Hu, IH. reflexivity.
Qed.

(** * [validate] *)

Lemma validate_ok (code : value) (r : text) :
  validate code = Ok r ->
  exists cleaned,
    compact code = Ok cleaned /\
    (length cleaned = 6%nat -> from_base32 cleaned = Ok r) /\
    (length cleaned <> 6%nat -> r = cleaned) /\
    is_base10 r = Ok true.
Proof.
  unfold validate. destruct (compact code) as [cleaned | e]; [| discriminate].
  cbn [bind]. intros H. exists cleaned. split; [reflexivity |].
  destruct (length cleaned =? 6)%nat eqn:Hlen.
  - apply Nat.eqb_eq in Hlen.
    destruct (is_base32 cleaned) as [b |] eqn:H32; [| discriminate H].
    cbn [bind] in H. rewrite is_base32_cases, Hlen in H32. cbn [Nat.eqb negb] in H32.
    destruct (forallb in_table cleaned) eqn:Hall; [| discriminate H32].
    cbn [negb] in H32. rewrite (from_base32_value _ Hall) in H.
    injection H as <-.
    destruct (is_base10_ok _ _ H32) as [-> _].
    repeat split; [intros _; apply from_base32_value, Hall | lia | exact H32].
  - apply Nat.eqb_neq in Hlen.
    destruct (is_base10 cleaned) as [b |] eqn:H10; [| discriminate H].
    cbn [bind] in H. injection H as <-.
    destruct (is_base10_ok _ _ H10) as [-> _].
    repeat split; [lia | exact H10].
Qed.

Lemma validate_raises (code : value) (e : exn) :
  validate code = Raise e -> is_ValidationError e = true.
Proof.
  unfold validate. destruct code as [s |]; cbn [compact bind].
  - destruct (length _ =? 6)%nat.
    + destruct (is_base32 _) as [b |] eqn:H32; cbn [bind].
      * intros H. unfold from_base32 in H.
        destruct (from_base32_loop _ 0) eqn:L; [discriminate H |].
        injection H as <-. apply from_base32_loop_raises in L. subst. reflexivity.
      * intros H. injection H as <-. apply (is_base32_raises _ _ H32).
    + destruct (is_base10 _) as [b |] eqn:H10; cbn [bind]; [discriminate |].
      intros H. injection H as <-. apply (is_base10_raises _ _ H10).
  - intros H. injection H as <-. reflexivity.
Qed.

Lemma all_digits_firstn (n : nat) (s : text) :
  all_digits s = true -> all_digits (firstn n s) = true.
Proof.
  revert s. induction n as [| n IH]; intros [| c r] H; try reflexivity.
  cbn [all_digits forallb firstn] in *. apply andb_prop in H as [-> Hr].
  apply (IH _ Hr).
Qed.

Lemma check_digit_spec_firstn (s : text) :
  check_digit_spec (firstn 8 s) = check_digit_spec s.
Proof.
  do 8 (destruct s as [| ? s]; [reflexivity |]). reflexivity.
Qed.

(** The round trip holds for every string of nine decimal digits, whatever
    its check digit. *)
Lemma roundtrip_nine_digits (c : text) :
  all_digits c = true -> length c = 9%nat ->
  exists b, to_base32 c = Ok b /\ from_base32 b = Ok c.
Proof.
  intros Hd Hlen.
  assert (c <> []) as Hne by (intros ->; discriminate Hlen).
  destruct (to_base32_digits c Hd Hne) as (t & E & Hall & Hv & _).
  eexists. split; [exact E |].
  rewrite from_base32_value
    by (apply all_contains_in_table, all_contains_zeros_app, Hall).
  rewrite b32_value_zeros_app, Hv, <- Hlen, zfill_str_dec_value by assumption.
  reflexivity.
Qed.

(** * The properties of the specification *)

(** C1. Round trip: for every valid 9-character base10 code [c] (nine
    decimal digits, leading ['0'], correct check digit, that is, [is_base10]
    accepts it), [to_base32 c] succeeds and [from_base32] of its result
    gives back [c] exactly, as the 9-character zero-padded string. *)
Theorem base10_roundtrip (c : text) :
  is_base10 c = Ok true ->
  exists b, to_base32 c = Ok b /\ from_base32 b = Ok c.
Proof.
  intros H. destruct (is_base10_ok _ _ H) as (_ & Hlen & Hd & _).
  apply roundtrip_nine_digits; assumption.
Qed.

Lemma base10_roundtrip_witness :
  exists b, to_base32 (lit "000307052") = Ok b /\
            from_base32 b = Ok (lit "000307052").
Proof. apply base10_roundtrip. vm_compute. reflexivity. Defined.

(** C2. Whenever [validate] succeeds, its result is the canonical
    9-character base10 digit string: for a compacted input of length 6 it is
    what [from_base32] returns on the compacted input, otherwise it is the
    compacted input itself; in both cases nine decimal digits that
    [is_base10] accepts. *)
Theorem validate_canonical (code : value) (r : text) :
  validate code = Ok r ->
  exists cleaned,
    compact code = Ok cleaned /\
    (length cleaned = 6%nat -> from_base32 cleaned = Ok r) /\
    (length cleaned <> 6%nat -> r = cleaned) /\
    length r = 9%nat /\ all_digits r = true /\ is_base10 r = Ok true.
Proof.
  intros H. destruct (validate_ok _ _ H) as (cleaned & Hc & H6 & Hn6 & H10).
  destruct (is_base10_ok _ _ H10) as (_ & Hlen & Hd & _).
  exists cleaned. auto 10.
Qed.

Lemma validate_canonical_witness :
  exists cleaned,
    compact (VStr (lit " 009cvd ")) = Ok cleaned /\
    (length cleaned = 6%nat -> from_base32 cleaned = Ok (lit "000307052")) /\
    (length cleaned <> 6%nat -> lit "000307052" = cleaned) /\
    length (lit "000307052") = 9%nat /\
    all_digits (lit "000307052") = true /\
    is_base10 (lit "000307052") = Ok true.
Proof. apply validate_canonical. vm_compute. reflexivity. Defined.

(** C3. For every string [s] of 8 or 9 decimal digits, [calc_check_digit s]
    is [str] of the sum over positions 0..7 of the folded products
    [fold_product (weight i * digit_at s i)] modulo 10, with weights 1, 2,
    1, 2, ... from position 0; that is a single decimal digit, and the
    result is the one computed from the first eight characters alone. *)
Theorem calc_check_digit_weighted_sum (s : text) :
  all_digits s = true -> length s = 8%nat \/ length s = 9%nat ->
  calc_check_digit s = Ok (Py.str (check_digit_spec s)) /\
  Py.str (check_digit_spec s) = [Py.digit_char (check_digit_spec s)] /\
  Py.is_digit (Py.digit_char (check_digit_spec s)) = true /\
  calc_check_digit s = calc_check_digit (firstn 8 s).
Proof.
  intros Hd Hlen.
  pose proof (check_digit_spec_range s) as R.
  assert (calc_check_digit s = Ok (Py.str (check_digit_spec s))) as E
    by (apply calc_check_digit_value; [lia | apply all_digits_firstn, Hd]).
  repeat split.
  - exact E.
  - apply str_digit, R.
  - apply digit_char_is_digit, R.
  - rewrite E, calc_check_digit_value, check_digit_spec_firstn.
    + reflexivity.
    + rewrite length_firstn. lia.
    + apply all_digits_firstn, all_digits_firstn, Hd.
Qed.

Lemma calc_check_digit_weighted_sum_witness :
  calc_check_digit (lit "000307052") =
    Ok (Py.str (check_digit_spec (lit "000307052"))) /\
  Py.str (check_digit_spec (lit "000307052")) =
    [Py.digit_char (check_digit_spec (lit "000307052"))] /\
  Py.is_digit (Py.digit_char (check_digit_spec (lit "000307052"))) = true /\
  calc_check_digit (lit "000307052") =
    calc_check_digit (firstn 8 (lit "000307052")).
Proof.
  apply calc_check_digit_weighted_sum; [reflexivity | right; reflexivity].
Defined.

Lemma pow10_9 : 10 ^ Z.of_nat 9 = 1000000000.
Proof. reflexivity. Qed.

Lemma pow10_10 : 10 ^ Z.of_nat 10 = 10000000000.
Proof. reflexivity. Qed.

(** The printed, padded value of a six-symbol base32 string: nine digits
    below 10^9, ten digits from there on. *)
Lemma zfill_str_b32 (s : text) :
  length s = 6%nat -> forallb in_table s = true ->
  let r := Py.zfill 9 (Py.str (b32_value s)) in
  all_digits r = true /\ dec_value r = b32_value s /\
  length r = (if b32_value s <? 1000000000 then 9%nat else 10%nat).
Proof.
  intros Hlen Hall r. subst r.
  pose proof (b32_value_bound s Hall) as B. rewrite Hlen in B.
  change (32 ^ Z.of_nat 6) with 1073741824 in B.
  destruct (digits_of_spec _ (proj1 B)) as [Hd Hv].
  rewrite str_nonneg, zfill_digits by (apply B || exact Hd).
  repeat split.
  - unfold all_digits in *. rewrite forallb_app, Hd, andb_true_r.
    apply all_digits_zeros.
  - rewrite dec_value_zeros_app. exact Hv.
  - rewrite length_app, repeat_length.
    pose proof (digits_of_length_le 9 (b32_value s)) as L10.
    rewrite pow10_10 in L10.
    destruct (Z.ltb_spec (b32_value s) 1000000000) as [Hlt | Hge].
    + pose proof (digits_of_length_le 8 (b32_value s)) as L9.
      rewrite pow10_9 in L9. lia.
    + pose proof (digits_of_length_gt 9 (b32_value s)) as G.
      rewrite pow10_9 in G. lia.
Qed.

(** C4 (counterexample). On the six-symbol string ZZZZZZ, whose value is
    32^6 - 1, [from_base32] returns the ten characters 1073741823: the
    result is not always nine characters long. *)
Lemma from_base32_ZZZZZZ :
  length (lit "ZZZZZZ") = 6%nat /\
  forallb in_table (lit "ZZZZZZ") = true /\
  from_base32 (lit "ZZZZZZ") = Ok (lit "1073741823") /\
  length (lit "1073741823") <> 9%nat.
Proof. repeat split; try reflexivity. vm_compute. discriminate. Qed.

(** C4 (amended). For every 6-character string whose characters, after
    uppercasing, are all in the alphabet, [from_base32] returns the decimal
    representation of the integer the string denotes in base 32, left-padded
    with zeros to at least nine characters: a digit string of exactly nine
    characters when that integer is below 10^9, and of ten characters
    otherwise. *)
Theorem from_base32_decimal (s : text) :
  length s = 6%nat -> forallb in_table s = true ->
  exists r,
    from_base32 s = Ok r /\
    r = Py.zfill 9 (Py.str (b32_value s)) /\
    all_digits r = true /\ dec_value r = b32_value s /\
    length r = (if b32_value s <? 1000000000 then 9%nat else 10%nat).
Proof.
  intros Hlen Hall. eexists. split; [apply from_base32_value, Hall |].
  split; [reflexivity |]. apply zfill_str_b32; assumption.
Qed.

Lemma from_base32_decimal_witness :
  exists r,
    from_base32 (lit "009cvd") = Ok r /\
    r = Py.zfill 9 (Py.str (b32_value (lit "009cvd"))) /\
    all_digits r = true /\ dec_value r = b32_value (lit "009cvd") /\
    length r = (if b32_value (lit "009cvd") <? 1000000000 then 9%nat else 10%nat).
Proof. apply from_base32_decimal; reflexivity. Defined.

(** C5 (counterexample). ZZZZZZ is a six-symbol string over the alphabet
    whose value is at least 100000000, and [is_base32] fails on it with
    [InvalidLength], not [InvalidFormat]. *)
Lemma is_base32_ZZZZZZ :
  length (lit "ZZZZZZ") = 6%nat /\
  forallb in_table (lit "ZZZZZZ") = true /\
  100000000 <= b32_value (lit "ZZZZZZ") /\
  is_base32 (lit "ZZZZZZ") = Raise InvalidLength /\
  is_base32 (lit "ZZZZZZ") <> Raise InvalidFormat.
Proof.
  repeat split; try reflexivity; vm_compute; discriminate.
Qed.

(** C5 (amended). For every 6-character string over the alphabet whose
    base 32 value is at least 100000000, [is_base32] fails with a validation
    error: [InvalidFormat] when the value is below 1000000000 (nine digits,
    the first one not ['0']), and [InvalidLength] when it is 1000000000 or
    more (ten digits). *)
Theorem is_base32_large_value (code : text) :
  length code = 6%nat -> forallb in_table code = true ->
  100000000 <= b32_value code ->
  is_base32 code =
  Raise (if b32_value code <? 1000000000 then InvalidFormat else InvalidLength).
Proof.
  intros Hlen Hall Hbig.
  rewrite is_base32_cases, Hlen, Hall. cbn [Nat.eqb negb].
  destruct (zfill_str_b32 code Hlen Hall) as (Hd & Hv & Hl).
  rewrite is_base10_cases, Hl.
  destruct (b32_value code <? 1000000000) eqn:Hlt; [| reflexivity].
  cbn [Nat.eqb negb]. rewrite Hd. cbn [negb].
  destruct (Py.zfill 9 (Py.str (b32_value code))) as [| c r]; [discriminate Hl |].
  cbn [first_char nth_error].
  destruct (Ascii.eqb_spec c "0") as [-> | Hc]; [| reflexivity].
  exfalso. rewrite dec_value_cons in Hv. change (Py.digit_val "0") with 0 in Hv.
  cbn [all_digits forallb] in Hd. apply andb_prop in Hd as [_ Hr].
  pose proof (dec_value_bound r Hr) as B.
  cbn [length] in Hl. injection Hl as Hl. rewrite Hl in B.
  change (10 ^ Z.of_nat 8) with 100000000 in B. lia.
Qed.

Lemma is_base32_large_value_witness :
  is_base32 (lit "300000") =
  Raise (if b32_value (lit "300000") <? 1000000000
         then InvalidFormat else InvalidLength).
Proof.
  apply is_base32_large_value; [reflexivity | reflexivity |].
  vm_compute. discriminate.
Defined.

(** C6. For every input, [is_valid] returns true exactly when [validate]
    succeeds, and a successful [validate] returns a non-empty string;
    whenever [validate] raises a validation failure, [is_valid] returns
    false; and no exception escapes [is_valid]. *)
Theorem is_valid_iff_validate (code : value) :
  (is_valid code = Ok true <-> exists r, validate code = Ok r) /\
  (forall r, validate code = Ok r -> r <> []) /\
  (forall e, validate code = Raise e -> is_ValidationError e = true ->
             is_valid code = Ok false) /\
  (forall e, is_valid code <> Raise e).
Proof.
  assert (forall r, validate code = Ok r -> r <> []) as Hne.
  { intros r H. destruct (validate_ok _ _ H) as (_ & _ & _ & _ & H10).
    destruct (is_base10_ok _ _ H10) as (_ & Hlen & _).
    intros ->. discriminate Hlen. }
  unfold is_valid. repeat split.
  - destruct (validate code) as [r | e]; [eauto |].
    destruct (is_ValidationError e); discriminate.
  - intros [r H]. rewrite H. specialize (Hne r H).
    destruct r; [congruence | reflexivity].
  - exact Hne.
  - intros e H He. rewrite H, He. reflexivity.
  - intros e. destruct (validate code) as [r | e'] eqn:H; [discriminate |].
    rewrite (validate_raises _ _ H). discriminate.
Qed.

(** C7. Length enforcement: on every string whose length is not 9,
    [is_base10] fails with [InvalidLength], and on every string whose length
    is not 6, [is_base32] fails with [InvalidLength], whatever the string
    contains. *)
Theorem length_enforcement (code : text) :
  (length code <> 9%nat -> is_base10 code = Raise InvalidLength) /\
  (length code <> 6%nat -> is_base32 code = Raise InvalidLength).
Proof.
  split; intros H; apply Nat.eqb_neq in H.
  - unfold is_base10. rewrite H. reflexivity.
  - unfold is_base32. rewrite H. reflexivity.
Qed.

Lemma length_enforcement_witness :
  is_base10 (lit "0003070520") = Raise InvalidLength /\
  is_base32 (lit "009CVDX") = Raise InvalidLength.
Proof.
  split.
  - apply (proj1 (length_enforcement (lit "0003070520"))). discriminate.
  - apply (proj2 (length_enforcement (lit "009CVDX"))). discriminate.
Defined.

(** C8. Leading-zero rule: on every string of nine decimal digits whose
    first character is not ['0'], [is_base10] fails with [InvalidFormat],
    whether or not the last digit is the check digit of the first eight. *)
Theorem leading_zero_rule (code : text) :
  length code = 9%nat -> all_digits code = true ->
  first_char code <> Some "0"%char ->
  is_base10 code = Raise InvalidFormat.
Proof.
  intros Hlen Hd H0. rewrite is_base10_cases, Hlen, Hd. cbn [Nat.eqb negb].
  destruct (first_char code) as [c |]; [| reflexivity].
  destruct (Ascii.eqb_spec c "0") as [-> | Hc]; [congruence | reflexivity].
Qed.

(** The witness has a matching check digit: 148975319. *)
Lemma leading_zero_rule_witness :
  check_base10_checksum (lit "148975319") = Ok true /\
  is_base10 (lit "148975319") = Raise InvalidFormat.
Proof.
  split; [reflexivity |].
  apply leading_zero_rule; [reflexivity | reflexivity | discriminate].
Defined.

(** C9. Idempotence of [compact]: for every string [x], compacting the
    result of [compact x] gives that result again, where [compact] deletes
    the space characters, uppercases, and strips surrounding whitespace. *)
Theorem compact_idempotent (x : text) :
  compact (VStr x) = Ok (Py.strip (Py.upper (clean x (lit " ")))) /\
  (cleaned <- compact (VStr x) ;; compact (VStr cleaned)) = compact (VStr x).
Proof.
  split; [reflexivity |]. cbn [compact bind]. f_equal.
  rewrite clean_upper_compacted by apply Forall_strip, upper_clean_compacted.
  apply strip_idem.
Qed.

(** The empty string denotes no integer: [int] refuses it, and so does
    [to_base32]. *)
Lemma to_base32_empty : to_base32 [] = Raise ValueError.
Proof. reflexivity. Qed.

(** C10. On every non-empty string of decimal digits whose integer value
    is below 32^6 = 1073741824, and so on every string of one to nine
    decimal digits, [to_base32] succeeds and returns exactly six characters,
    all of them symbols of the table. *)
Theorem to_base32_six_symbols (s : text) (n : Z) :
  all_digits s = true -> Py.int s = Ok n ->
  n < 1073741824 \/ (length s <= 9)%nat ->
  exists b,
    to_base32 s = Ok b /\ length b = 6%nat /\
    forallb (Py.contains AIC_TABLE) b = true /\ b32_value b = n.
Proof.
  intros Hd Hint Hsmall.
  assert (s <> []) as Hne by (intros ->; discriminate Hint).
  rewrite (int_digits s Hd Hne) in Hint. injection Hint as <-.
  assert (dec_value s < 32 ^ 6) as Hlt.
  { change (32 ^ 6) with 1073741824. destruct Hsmall as [H | H]; [exact H |].
    pose proof (dec_value_bound s Hd) as [_ B].
    assert (10 ^ Z.of_nat (length s) <= 10 ^ 9)
      by (apply Z.pow_le_mono_r; lia).
    change (10 ^ 9) with 1000000000 in *. lia. }
  destruct (to_base32_digits s Hd Hne) as (t & E & Hall & Hv & Hlen).
  specialize (Hlen Hlt). eexists. split; [exact E |]. repeat split.
  - rewrite length_app, repeat_length. lia.
  - apply all_contains_zeros_app, Hall.
  - rewrite b32_value_zeros_app. exact Hv.
Qed.

Lemma to_base32_six_symbols_witness :
  exists b,
    to_base32 (lit "999999999") = Ok b /\ length b = 6%nat /\
    forallb (Py.contains AIC_TABLE) b = true /\ b32_value b = 999999999.
Proof.
  apply to_base32_six_symbols; [reflexivity | reflexivity | left; reflexivity].
Defined.

(** * Further properties of the module *)

(** ** The converter outside the six-symbol case *)





Lemma digit_value_upper_char (c : ascii) :
  digit_value (Py.upper_char c) = digit_value c.
Proof. unfold digit_value. rewrite upper_char_idem. reflexivity. Qed.


Lemma b32_value_upper (s : text) : b32_value (Py.upper s) = b32_value s.
Proof.
  induction s as [| c r IH]; [reflexivity |].
  cbn [Py.upper map b32_value]. fold (Py.upper r).
  rewrite IH, digit_value_upper_char. unfold Py.upper. rewrite length_map.
  reflexivity.
Qed.



(** ** The checksum engine on arbitrary input *)


Lemma digit_char_val (c : ascii) :
  Py.is_digit c = true -> Py.digit_char (Py.digit_val c) = c.
Proof. each_char c; intros H; try discriminate H; reflexivity. Qed.

Lemma text_eqb_single (a b : ascii) : Py.text_eqb [a] [b] = Ascii.eqb a b.
Proof.
  unfold Py.text_eqb.
  destruct (list_eq_dec ascii_dec [a] [b]) as [E | E];
    destruct (Ascii.eqb_spec a b) as [H | H]; try reflexivity.
  - injection E as E. contradiction.
  - subst. contradiction.
Qed.





(** ** What [is_base10] and [is_base32] accept *)

(** On nine digits the comparison of [check_base10_checksum] is the
    comparison of the ninth digit with the specified check digit. *)
Lemma nine_digits_checksum (code : text) :
  length code = 9%nat -> all_digits code = true ->
  Py.text_eqb (skipn 8 code) (Py.str (check_digit_spec code)) =
  (digit_at code 8 =? check_digit_spec code).
Proof.
  intros Hlen Hd.
  pose proof (check_digit_spec_range code) as R.
  rewrite (str_digit _ R).
  do 9 (destruct code as [| ? code]; [discriminate Hlen |]).
  destruct code; [| discriminate Hlen].
  cbn [skipn]. rewrite text_eqb_single. unfold digit_at at 1. cbn [nth].
  split_digits Hd.
  generalize dependent (check_digit_spec [a; a0; a1; a2; a3; a4; a5; a6; a7]).
  intros v R.
  destruct (Z.eqb_spec (Py.digit_val a7) v) as [E | E];
    destruct (Ascii.eqb_spec a7 (Py.digit_char v)) as [H | H]; try reflexivity.
  - exfalso. apply H. rewrite <- E. symmetry. apply digit_char_val. assumption.
  - exfalso. apply E. rewrite H. apply digit_val_char, R.
Qed.

Lemma is_base10_nine_digits (code : text) :
  length code = 9%nat -> all_digits code = true ->
  first_char code = Some "0"%char ->
  is_base10 code =
  if digit_at code 8 =? check_digit_spec code then Ok true
  else Raise InvalidChecksum.
Proof.
  intros Hlen Hd H0.
  rewrite is_base10_cases, Hlen, Hd, H0, nine_digits_checksum by assumption.
  reflexivity.
Qed.

(** X4. The checksum decides: on nine decimal digits with a leading ['0'],
    [check_base10_checksum] returns whether the ninth digit is the check
    digit of the first eight, and [is_base10] returns true when it is and
    raises [InvalidChecksum] when it is not. *)
Theorem checksum_decides (code : text) :
  length code = 9%nat -> all_digits code = true ->
  first_char code = Some "0"%char ->
  check_base10_checksum code =
    Ok (digit_at code 8 =? check_digit_spec code) /\
  is_base10 code =
    if digit_at code 8 =? check_digit_spec code then Ok true
    else Raise InvalidChecksum.
Proof.
  intros Hlen Hd H0. split; [| apply is_base10_nine_digits; assumption].
  unfold check_base10_checksum.
  rewrite calc_check_digit_value
    by (try apply all_digits_firstn; try exact Hd; lia).
  cbn [bind]. rewrite <- nine_digits_checksum by assumption.
  do 9 (destruct code as [| ? code]; [discriminate Hlen |]).
  destruct code; [| discriminate Hlen].
  match goal with
  | |- context [Py.getitem ?l (-1)] =>
      replace (Py.getitem l (-1)) with (@Ok ascii a7) by reflexivity
  end.
  reflexivity.
Qed.

Lemma checksum_decides_witness :
  check_base10_checksum (lit "000307053") =
    Ok (digit_at (lit "000307053") 8 =? check_digit_spec (lit "000307053")) /\
  is_base10 (lit "000307053") =
    if digit_at (lit "000307053") 8 =? check_digit_spec (lit "000307053")
    then Ok true else Raise InvalidChecksum.
Proof. apply checksum_decides; reflexivity. Defined.

(** X5. Neither [is_base10] nor [is_base32] ever returns false: each
    returns true or raises, and what it raises is a validation failure. *)
Theorem is_base_true_or_raises (code : text) :
  (is_base10 code = Ok true \/
   exists e, is_base10 code = Raise e /\ is_ValidationError e = true) /\
  (is_base32 code = Ok true \/
   exists e, is_base32 code = Raise e /\ is_ValidationError e = true).
Proof.
  split.
  - destruct (is_base10 code) as [b | e] eqn:H.
    + left. destruct (is_base10_ok _ _ H) as [-> _]. reflexivity.
    + right. exists e. split; [reflexivity | apply (is_base10_raises _ _ H)].
  - destruct (is_base32 code) as [b | e] eqn:H.
    + left. rewrite is_base32_cases in H.
      destruct (negb _); [discriminate H |].
      destruct (negb _); [discriminate H |].
      destruct (is_base10_ok _ _ H) as [-> _]. reflexivity.
    + right. exists e. split; [reflexivity | apply (is_base32_raises _ _ H)].
Qed.



(** ** Error detection *)

Lemma is_base10_true_checksum (code : text) :
  is_base10 code = Ok true -> digit_at code 8 = check_digit_spec code.
Proof.
  intros H. destruct (is_base10_ok _ _ H) as (_ & Hlen & Hd & H0).
  rewrite (is_base10_nine_digits code Hlen Hd H0) in H.
  destruct (Z.eqb_spec (digit_at code 8) (check_digit_spec code));
    [assumption | discriminate H].
Qed.

Lemma all_digits_app (s t : text) :
  all_digits (s ++ t) = all_digits s && all_digits t.
Proof. apply forallb_app. Qed.

(** Cutting a string of known length into its characters. *)
Ltac explode s H :=
  repeat (destruct s as [| ? s]; cbn [app length] in H; try lia).

(** X7. The check digit detects every single-character substitution: if
    [is_base10] accepts a code, then the code with any one character
    replaced by a different one is rejected, with [InvalidChecksum] when a
    digit after the first is replaced by another digit and with
    [InvalidFormat] otherwise. *)
Theorem single_substitution_rejected (pre post : text) (x y : ascii) :
  is_base10 (pre ++ x :: post) = Ok true -> x <> y ->
  is_base10 (pre ++ y :: post) =
  Raise (match pre with
         | [] => InvalidFormat
         | _ :: _ => if Py.is_digit y then InvalidChecksum else InvalidFormat
         end).
Proof.
  intros H Hxy.
  destruct (is_base10_ok _ _ H) as (_ & Hlen & Hd & H0).
  pose proof (is_base10_true_checksum _ H) as E. clear H.
  assert (length (pre ++ y :: post) = 9%nat) as Hlen'
    by (rewrite length_app in *; exact Hlen).
  rewrite all_digits_app in Hd. apply andb_prop in Hd as [Hpre Hpost].
  cbn [all_digits forallb] in Hpost. apply andb_prop in Hpost as [Hx Hpost].
  fold (all_digits post) in Hpost.
  destruct (Py.is_digit y) eqn:Hy.
  - assert (Py.digit_val x <> Py.digit_val y) as Hv
      by (intros Hv; apply Hxy, digit_val_inj; assumption).
    pose proof (digit_val_range x Hx) as Rx.
    pose proof (digit_val_range y Hy) as Ry.
    assert (all_digits (pre ++ y :: post) = true) as Hd'
      by (rewrite all_digits_app, Hpre; cbn [all_digits forallb andb];
          rewrite Hy; exact Hpost).
    destruct pre as [| p pre].
    + cbn [app] in *. rewrite is_base10_cases, Hlen', Hd'.
      cbn [first_char nth_error Nat.eqb negb] in *. injection H0 as ->.
      destruct (Ascii.eqb_spec y "0"); [congruence | reflexivity].
    + rewrite is_base10_nine_digits by assumption.
      destruct (Z.eqb_spec (digit_at ((p :: pre) ++ y :: post) 8)
                           (check_digit_spec ((p :: pre) ++ y :: post)))
        as [E' | E']; [exfalso | reflexivity].
      clear Hd' H0 Hpre Hpost Hx Hy Hxy Hlen'.
      cbn [app length] in Hlen.
      explode pre Hlen; explode post Hlen; clear Hlen;
        unfold check_digit_spec, digit_at in E, E';
        cbn [app seq map fold_right nth] in E, E';
        unfold fold_product, weight in E, E'; cbn [Nat.even] in E, E';
        Z.div_mod_to_equations; lia.
  - rewrite is_base10_cases, Hlen'. cbn [Nat.eqb negb].
    rewrite all_digits_app. cbn [all_digits forallb]. rewrite Hy.
    rewrite andb_false_r. cbn [negb]. destruct pre; reflexivity.
Qed.

Lemma single_substitution_rejected_witness :
  is_base10 (lit "0003" ++ "1"%char :: lit "7052") =
  Raise (match lit "0003" with
         | [] => InvalidFormat
         | _ :: _ => if Py.is_digit "1" then InvalidChecksum else InvalidFormat
         end).
Proof.
  apply (single_substitution_rejected (lit "0003") (lit "7052") "0" "1");
    [reflexivity | discriminate].
Defined.

(** ** From base32 to base10 and back *)

(** A symbol of the table is the one the table holds at its value; it is
    not whitespace, not a space, and its own uppercase. *)
Lemma table_symbol (c : ascii) :
  Py.contains AIC_TABLE c = true ->
  Py.getitem AIC_TABLE (digit_value c) = Ok c /\
  Py.is_space c = false /\ compacted_char c.
Proof.
  each_char c; intros H; try discriminate H; repeat split.
Qed.

Lemma digit_value_inj (c c' : ascii) :
  Py.contains AIC_TABLE c = true -> Py.contains AIC_TABLE c' = true ->
  digit_value c = digit_value c' -> c = c'.
Proof.
  intros Hc Hc' E.
  destruct (table_symbol c Hc) as [G _], (table_symbol c' Hc') as [G' _].
  rewrite E in G. congruence.
Qed.

Lemma map_inj_on {A B : Type} (P : A -> Prop) (f : A -> B) (l l' : list A) :
  (forall x y, P x -> P y -> f x = f y -> x = y) ->
  Forall P l -> Forall P l' -> map f l = map f l' -> l = l'.
Proof.
  intros Hf Hl. revert l'.
  induction Hl as [| x l Hx _ IH]; intros [| y l'] Hl' E;
    try discriminate E; [reflexivity |].
  inversion Hl' as [| ? ? Hy Hl'']; subst. cbn [map] in E. injection E as E1 E2.
  f_equal; [apply Hf | apply IH]; assumption.
Qed.

(** Two strings of table symbols of one length that denote the same
    integer are the same string. *)
Lemma b32_value_inj (s t : text) :
  forallb (Py.contains AIC_TABLE) s = true ->
  forallb (Py.contains AIC_TABLE) t = true ->
  length s = length t -> b32_value s = b32_value t -> s = t.
Proof.
  intros Hs Ht Hlen Hv. rewrite !b32_value_le in Hv.
  assert (forall u, forallb (Py.contains AIC_TABLE) u = true ->
                    forallb in_table (rev u) = true) as R
    by (intros u Hu; rewrite all_in_table_rev; apply all_contains_in_table, Hu).
  apply (le_value_inj 32) in Hv;
    [| lia | apply b32_in_range, R, Hs | apply b32_in_range, R, Ht
     | rewrite !length_map, !length_rev; exact Hlen].
  apply (map_inj_on (fun c => Py.contains AIC_TABLE c = true)) in Hv.
  - rewrite <- (rev_involutive s), <- (rev_involutive t), Hv. reflexivity.
  - apply digit_value_inj.
  - apply Forall_rev, Forall_forall. apply forallb_forall, Hs.
  - apply Forall_rev, Forall_forall. apply forallb_forall, Ht.
Qed.

Lemma all_contains_upper (s : text) :
  forallb (Py.contains AIC_TABLE) (Py.upper s) = forallb in_table s.
Proof.
  induction s as [| c r IH]; [reflexivity |].
  cbn [Py.upper map forallb]. fold (Py.upper r). rewrite IH. reflexivity.
Qed.

Lemma to_base32_of_value (s : text) :
  length s = 6%nat -> forallb in_table s = true ->
  to_base32 (Py.zfill 9 (Py.str (b32_value s))) = Ok (Py.upper s).
Proof.
  intros Hlen Hall.
  destruct (zfill_str_b32 s Hlen Hall) as (Hd & Hv & Hl).
  pose proof (b32_value_bound s Hall) as B. rewrite Hlen in B.
  set (r := Py.zfill 9 (Py.str (b32_value s))) in *.
  assert (r <> []) as Hne
    by (intros E; rewrite E in Hl; destruct (_ <? _); discriminate Hl).
  destruct (to_base32_digits r Hd Hne) as (t & -> & Ht & Hvt & Hlt).
  rewrite Hv in Hvt, Hlt. specialize (Hlt (proj2 B)).
  f_equal. apply b32_value_inj.
  - apply all_contains_zeros_app, Ht.
  - rewrite all_contains_upper. exact Hall.
  - rewrite length_app, repeat_length. unfold Py.upper. rewrite length_map. lia.
  - rewrite b32_value_zeros_app, b32_value_upper. exact Hvt.
Qed.

(** X8. The round trip from base32: for every 6-character string [s] over
    the alphabet, converting with [from_base32] and back with [to_base32]
    gives [s] in uppercase. *)
Theorem base32_roundtrip (s : text) :
  length s = 6%nat -> forallb in_table s = true ->
  (c <- from_base32 s ;; to_base32 c) = Ok (Py.upper s).
Proof.
  intros Hlen Hall. rewrite (from_base32_value s Hall). cbn [bind].
  apply to_base32_of_value; assumption.
Qed.

Lemma base32_roundtrip_witness :
  (c <- from_base32 (lit "zzzzzz") ;; to_base32 c) =
  Ok (Py.upper (lit "zzzzzz")).
Proof. apply base32_roundtrip; reflexivity. Defined.



(** X10. [to_base32] does not refuse a negative number: when [int] reads
    a negative integer [n] the loop does not run and the table is indexed
    with [n] itself, so that from -32 to -1 the result is the symbol counted
    from the end of the table, padded to six characters, and below -32 the
    call raises [IndexError]. *)
Theorem to_base32_negative (s : text) (n : Z) :
  Py.int s = Ok n -> n < 0 ->
  to_base32 s =
  if n <? -32 then Raise IndexError
  else Ok (lit "00000" ++ [nth (Z.to_nat (n + 32)) AIC_TABLE "0"%char]).
Proof.
  intros Hint Hn. unfold to_base32. rewrite Hint. cbn [bind].
  rewrite to_base32_loop_step.
  destruct (Z_gt_dec n 31) as [Hgt | _]; [lia |]. cbn [bind].
  destruct (Z.ltb_spec n (-32)) as [Hlow | Hhigh].
  - unfold Py.getitem. change (Z.of_nat (length AIC_TABLE)) with 32.
    destruct (Z.ltb_spec n 0); [| lia].
    destruct (Z.ltb_spec (n + 32) 0); [reflexivity | lia].
  - assert (exists k, (k < 32)%nat /\ n = Z.of_nat k - 32) as (k & Hk & ->)
      by (exists (Z.to_nat (n + 32)); lia).
    do 32 (destruct k as [| k]; [reflexivity |]). lia.
Qed.

Lemma to_base32_negative_witness :
  to_base32 (lit "-5") =
  if -5 <? -32 then Raise IndexError
  else Ok (lit "00000" ++ [nth (Z.to_nat (-5 + 32)) AIC_TABLE "0"%char]).
Proof. apply to_base32_negative; reflexivity. Defined.

(** ** [validate] on the two forms *)

Lemma strip_of_fix (space : ascii -> bool) (s : text) :
  Forall (fun c => space c = false) s -> Py.strip_of space s = s.
Proof.
  intros H.
  assert (forall u, Forall (fun c => space c = false) u ->
                    Py.lstrip_of space u = u) as L
    by (intros u [| c r Hc _]; cbn [Py.lstrip_of]; [| rewrite Hc]; reflexivity).
  unfold Py.strip_of, Py.rstrip_of.
  rewrite (L s H), L, rev_involutive; [reflexivity | apply Forall_rev, H].
Qed.

(** [compact] leaves a string of table symbols as it is. *)
Lemma compact_table_symbols (s : text) :
  forallb (Py.contains AIC_TABLE) s = true -> compact (VStr s) = Ok s.
Proof.
  intros H. rewrite forallb_forall in H. cbn [compact]. f_equal.
  rewrite clean_upper_compacted.
  - apply strip_of_fix, Forall_forall. intros c Hc. apply table_symbol, H, Hc.
  - apply Forall_forall. intros c Hc. apply table_symbol, H, Hc.
Qed.

Lemma digit_in_table (c : ascii) :
  Py.is_digit c = true -> Py.contains AIC_TABLE c = true.
Proof. each_char c; intros H; try discriminate H; reflexivity. Qed.

Lemma all_digits_in_table (s : text) :
  all_digits s = true -> forallb (Py.contains AIC_TABLE) s = true.
Proof.
  unfold all_digits. rewrite !forallb_forall. intros H c Hc.
  apply digit_in_table, H, Hc.
Qed.

Lemma validate_base10 (c : text) :
  is_base10 c = Ok true -> validate (VStr c) = Ok c.
Proof.
  intros H. destruct (is_base10_ok _ _ H) as (_ & Hlen & Hd & _).
  unfold validate. rewrite (compact_table_symbols c (all_digits_in_table c Hd)).
  cbn [bind]. rewrite Hlen, H. reflexivity.
Qed.

(** X11. The canonical form is a fixed point: what [validate] returns is
    itself accepted by [validate], which returns it unchanged. *)
Theorem validate_idempotent (code : value) (r : text) :
  validate code = Ok r -> validate (VStr r) = Ok r.
Proof.
  intros H. destruct (validate_ok _ _ H) as (_ & _ & _ & _ & H10).
  apply validate_base10, H10.
Qed.

Lemma validate_idempotent_witness :
  validate (VStr (lit "000307052")) = Ok (lit "000307052").
Proof.
  apply (validate_idempotent (VStr (lit " 009cvd "))). vm_compute. reflexivity.
Defined.

(** X12. The two forms of a code validate to the same canonical string:
    for every base10 code [c] that [is_base10] accepts, [to_base32 c] is a
    six-character string that [is_base32] accepts and on which [validate]
    returns [c], as it does on [c] itself. *)
Theorem validate_both_forms (c : text) :
  is_base10 c = Ok true ->
  exists b,
    to_base32 c = Ok b /\ length b = 6%nat /\ is_base32 b = Ok true /\
    validate (VStr b) = Ok c /\ validate (VStr c) = Ok c.
Proof.
  intros H. destruct (is_base10_ok _ _ H) as (_ & Hlen & Hd & _).
  assert (c <> []) as Hne by (intros ->; discriminate Hlen).
  destruct (to_base32_digits c Hd Hne) as (t & E & Hall & Hv & Hlt).
  pose proof (dec_value_bound c Hd) as B. rewrite Hlen in B.
  change (10 ^ Z.of_nat 9) with 1000000000 in B.
  assert (length t <= 6)%nat as Ht
    by (apply Hlt; change (32 ^ 6) with 1073741824; lia).
  set (b := repeat "0"%char (6 - length t) ++ t) in *.
  assert (forallb (Py.contains AIC_TABLE) b = true) as Hb
    by apply all_contains_zeros_app, Hall.
  assert (length b = 6%nat) as Hlb
    by (unfold b; rewrite length_app, repeat_length; lia).
  assert (Py.zfill 9 (Py.str (b32_value b)) = c) as Hc.
  { unfold b. rewrite b32_value_zeros_app, Hv, <- Hlen.
    apply zfill_str_dec_value; assumption. }
  assert (is_base32 b = Ok true) as H32.
  { rewrite is_base32_cases, Hlb, (all_contains_in_table _ Hb), Hc.
    exact H. }
  exists b. repeat split; try assumption.
  - unfold validate. rewrite (compact_table_symbols b Hb). cbn [bind].
    rewrite Hlb, H32. cbn [Nat.eqb bind].
    rewrite (from_base32_value _ (all_contains_in_table _ Hb)), Hc.
    reflexivity.
  - apply validate_base10, H.
Qed.

Lemma validate_both_forms_witness :
  exists b,
    to_base32 (lit "000307052") = Ok b /\ length b = 6%nat /\
    is_base32 b = Ok true /\
    validate (VStr b) = Ok (lit "000307052") /\
    validate (VStr (lit "000307052")) = Ok (lit "000307052").
Proof. apply validate_both_forms. vm_compute. reflexivity. Defined.

Lemma compact_compacted (x : text) :
  Forall compacted_char (Py.strip (Py.upper (clean x (lit " ")))).
Proof. apply Forall_strip, upper_clean_compacted. Qed.

Lemma upper_compacted (s : text) : Forall compacted_char s -> Py.upper s = s.
Proof.
  induction 1 as [| c r [_ Hu] _ IH]; [reflexivity |].
  unfold Py.upper in *. cbn [map]. rewrite Hu, IH. reflexivity.
Qed.

Lemma compact_again (x : text) :
  compact (VStr (Py.strip (Py.upper (clean x (lit " "))))) =
  Ok (Py.strip (Py.upper (clean x (lit " ")))).
Proof.
  cbn [compact]. f_equal.
  rewrite clean_upper_compacted by apply compact_compacted.
  apply strip_idem.
Qed.

(** X13. Back from the canonical form: when [validate] accepts an input
    whose compacted form has six characters, [to_base32] of the returned
    base10 string is that compacted form. *)
Theorem validate_to_base32 (code : value) (cleaned r : text) :
  validate code = Ok r -> compact code = Ok cleaned ->
  length cleaned = 6%nat ->
  to_base32 r = Ok cleaned.
Proof.
  intros H Hc Hlen. unfold validate in H. rewrite Hc in H. cbn [bind] in H.
  rewrite Hlen in H. cbn [Nat.eqb] in H.
  destruct (is_base32 cleaned) as [b |] eqn:H32; [| discriminate H].
  cbn [bind] in H. rewrite is_base32_cases, Hlen in H32.
  cbn [Nat.eqb negb] in H32.
  destruct (forallb in_table cleaned) eqn:Hall; [| discriminate H32].
  rewrite (from_base32_value _ Hall) in H. injection H as <-.
  rewrite to_base32_of_value by assumption. f_equal.
  apply upper_compacted.
  destruct code as [x |]; [| discriminate Hc].
  cbn [compact] in Hc. injection Hc as <-. apply compact_compacted.
Qed.

Lemma validate_to_base32_witness :
  to_base32 (lit "000307052") = Ok (lit "009CVD").
Proof.
  apply (validate_to_base32 (VStr (lit " 009cvd "))); reflexivity.
Defined.



(** X15. Spaces, case and surrounding whitespace do not matter: [validate]
    and [is_valid] give the same outcome on a string and on its compacted
    form. *)
Theorem validate_compact (x : text) :
  validate (VStr x) = (c <- compact (VStr x) ;; validate (VStr c)) /\
  is_valid (VStr x) = (c <- compact (VStr x) ;; is_valid (VStr c)).
Proof.
  assert (validate (VStr x) = (c <- compact (VStr x) ;; validate (VStr c)))
    as E.
  { cbn [compact bind]. unfold validate at 2. rewrite compact_again.
    reflexivity. }
  split; [exact E |].
  unfold is_valid at 1. rewrite E. reflexivity.
Qed.



(** X17. Form detection: an input whose compacted form has neither six
    nor nine characters is rejected by [validate] with [InvalidLength], and
    [is_valid] returns false on it. *)
Theorem validate_other_length (code : value) (cleaned : text) :
  compact code = Ok cleaned ->
  length cleaned <> 6%nat -> length cleaned <> 9%nat ->
  validate code = Raise InvalidLength /\ is_valid code = Ok false.
Proof.
  intros Hc H6 H9.
  assert (validate code = Raise InvalidLength) as E.
  { unfold validate. rewrite Hc. cbn [bind].
    apply Nat.eqb_neq in H6. rewrite H6.
    unfold is_base10. apply Nat.eqb_neq in H9. rewrite H9. reflexivity. }
  split; [exact E |]. unfold is_valid. rewrite E. reflexivity.
Qed.

Lemma validate_other_length_witness :
  validate (VStr (lit "not a code")) = Raise InvalidLength /\
  is_valid (VStr (lit "not a code")) = Ok false.
Proof.
  apply (validate_other_length _ (lit "NOTACODE"));
    [reflexivity | discriminate | discriminate].
Defined.

(** X18. [is_valid] accepts exactly the strings whose compacted form is
    accepted by [is_base10] or by [is_base32]. *)
Theorem is_valid_either_form (x cleaned : text) :
  compact (VStr x) = Ok cleaned ->
  (is_valid (VStr x) = Ok true <->
   is_base10 cleaned = Ok true \/ is_base32 cleaned = Ok true).
Proof.
  intros Hc. unfold is_valid, validate. rewrite Hc. cbn [bind]. split.
  - destruct (length cleaned =? 6)%nat.
    + destruct (is_base32 cleaned) as [b |] eqn:H32; cbn [bind].
      * intros _. right. rewrite is_base32_cases in *.
        destruct (negb _); [discriminate H32 |].
        destruct (negb _); [discriminate H32 |].
        destruct (is_base10_ok _ _ H32) as [-> _]. reflexivity.
      * destruct (is_ValidationError e); discriminate.
    + destruct (is_base10 cleaned) as [b |] eqn:H10; cbn [bind].
      * intros _. left. destruct (is_base10_ok _ _ H10) as [-> _]. reflexivity.
      * destruct (is_ValidationError e); discriminate.
  - intros [H10 | H32].
    + destruct (is_base10_ok _ _ H10) as (_ & Hlen & _).
      rewrite Hlen, H10. cbn [Nat.eqb bind].
      destruct cleaned; [discriminate Hlen | reflexivity].
    + pose proof H32 as H. rewrite is_base32_cases in H.
      destruct (length cleaned =? 6)%nat eqn:Hlen; [| discriminate H].
      destruct (forallb in_table cleaned) eqn:Hall; [| discriminate H].
      cbn [negb] in H. rewrite H32. cbn [bind].
      rewrite (from_base32_value _ Hall).
      destruct (is_base10_ok _ _ H) as (_ & Hl9 & _).
      destruct (Py.zfill 9 _); [discriminate Hl9 | reflexivity].
Qed.

Lemma is_valid_either_form_witness :
  is_valid (VStr (lit " 009cvd ")) = Ok true <->
  is_base10 (lit "009CVD") = Ok true \/ is_base32 (lit "009CVD") = Ok true.
Proof. apply is_valid_either_form. reflexivity. Defined.

(** X19. Completing a code: for eight decimal digits with a leading ['0'],
    [calc_check_digit] returns one digit; the eight digits followed by it
    are accepted by [is_base10], and followed by any other character they
    are not. *)
Theorem check_digit_completes (s : text) :
  length s = 8%nat -> all_digits s = true ->
  first_char s = Some "0"%char ->
  exists d,
    calc_check_digit s = Ok [d] /\
    is_base10 (s ++ [d]) = Ok true /\
    forall d', is_base10 (s ++ [d']) = Ok true -> d' = d.
Proof.
  intros Hlen Hd H0.
  pose proof (check_digit_spec_range s) as R.
  assert (forall c, check_digit_spec (s ++ [c]) = check_digit_spec s) as Hspec.
  { intros c. rewrite <- (check_digit_spec_firstn (s ++ [c])).
    rewrite firstn_app, <- Hlen, firstn_all, Nat.sub_diag.
    cbn [firstn]. rewrite app_nil_r. reflexivity. }
  assert (forall c, digit_at (s ++ [c]) 8 = Py.digit_val c) as Hat.
  { intros c. unfold digit_at. rewrite app_nth2, Hlen by lia. reflexivity. }
  assert (forall c, first_char (s ++ [c]) = Some "0"%char) as Hfirst
    by (intros c; destruct s; [discriminate Hlen | exact H0]).
  exists (Py.digit_char (check_digit_spec s)). repeat split.
  - rewrite calc_check_digit_value, str_digit;
      [reflexivity | exact R | lia | apply all_digits_firstn, Hd].
  - rewrite is_base10_nine_digits.
    + rewrite Hat, Hspec, digit_val_char, Z.eqb_refl by exact R. reflexivity.
    + rewrite length_app, Hlen. reflexivity.
    + rewrite all_digits_app, Hd. cbn [all_digits forallb andb].
      rewrite digit_char_is_digit by exact R. reflexivity.
    + apply Hfirst.
  - intros d' H. destruct (is_base10_ok _ _ H) as (_ & _ & Hd' & _).
    apply is_base10_true_checksum in H. rewrite Hat, Hspec in H.
    rewrite all_digits_app in Hd'. apply andb_prop in Hd' as [_ Hd'].
    cbn [all_digits forallb] in Hd'. rewrite andb_true_r in Hd'.
    rewrite <- H. symmetry. apply digit_char_val, Hd'.
Qed.

Lemma check_digit_completes_witness :
  exists d,
    calc_check_digit (lit "00030705") = Ok [d] /\
    is_base10 (lit "00030705" ++ [d]) = Ok true /\
    forall d', is_base10 (lit "00030705" ++ [d']) = Ok true -> d' = d.
Proof. apply check_digit_completes; reflexivity. Defined.
